(** * Outcome projection engine of the "yourfuture" application

    A shallow embedding of the projection logic of the [App] component
    ([generateProjectionData], [runAnalysis]) together with the host
    functions of ECMAScript it calls, and the properties the design
    document states about them.

    Numbers are IEEE 754 binary64 values, as in the host language: they are
    Rocq's primitive floats, whose operations are specified by
    [FloatAxioms] against [SpecFloat].  Strings are sequences of code
    units; the embedding covers the code units 0..255. *)

From Stdlib Require Import ZArith List String Ascii Bool Lia.
From Stdlib Require Import DecimalString.
From Stdlib Require Import Floats.
Import ListNotations.

Set Warnings "-inexact-float".

Open Scope bool_scope.

(** ** Host functions *)

Module JS.

(** The Number for the mathematical integer [z]: the value nearest to the mathematical integer [z]
    (round to nearest, ties to even). *)
Definition of_Z (z : Z) : float :=
  SF2Prim (binary_normalize prec emax z 0 false).

Definition of_nat (n : nat) : float := of_Z (Z.of_nat n).

(** ToBoolean on a Number: [+0], [-0] and [NaN] are falsy. *)
Definition truthy (x : float) : bool :=
  negb (PrimFloat.is_nan x || PrimFloat.is_zero x).

(** [a || b] on Numbers. *)
Definition or_else (a b : float) : float := if truthy a then a else b.

Definition is_neg_zero (x : float) : bool :=
  PrimFloat.is_zero x && PrimFloat.get_sign x.

Definition is_pos_zero (x : float) : bool :=
  PrimFloat.is_zero x && negb (PrimFloat.get_sign x).

(** [Math.min(a, b)]: NaN if either is NaN; the running minimum starts at
    [a], and [b] replaces it when it is [-0] against [+0] or smaller. *)
Definition Math_min (a b : float) : float :=
  if PrimFloat.is_nan a || PrimFloat.is_nan b then nan
  else if (b <? a)%float then b
  else if is_neg_zero b && is_pos_zero a then b
  else a.

(** [Math.max(a, b)], dually. *)
Definition Math_max (a b : float) : float :=
  if PrimFloat.is_nan a || PrimFloat.is_nan b then nan
  else if (a <? b)%float then b
  else if is_pos_zero b && is_neg_zero a then b
  else a.

(** [Math.sin] is implementation-approximated in ECMAScript.  The loop of
    [generateProjectionData] evaluates it at the integers 0..5 only; the
    table holds the correctly rounded binary64 value at each of them.
    Other arguments are outside the embedding. *)
Definition Math_sin (x : float) : float :=
  if (x =? 0)%float then x
  else if (x =? 1)%float then 0x1.aed548f090ceep-1%float   (* 0.8414709848078965 *)
  else if (x =? 2)%float then 0x1.d18f6ead1b446p-1%float   (* 0.9092974268256817 *)
  else if (x =? 3)%float then 0x1.210386db6d55bp-3%float   (* 0.1411200080598672 *)
  else if (x =? 4)%float then (-0x1.837b9dddc1eaep-1)%float (* -0.7568024953079282 *)
  else if (x =? 5)%float then (-0x1.eaf81f5e09933p-1)%float (* -0.9589242746631385 *)
  else nan.

(** *** [parseInt(string)] with the radix left undefined *)

Definition code (c : ascii) : Z := Z.of_N (N_of_ascii c).

(** StrWhiteSpaceChar among the code units 0..255: TAB, LF, VT, FF, CR,
    SP and NBSP. *)
Definition is_white (c : ascii) : bool :=
  let n := code c in
  ((9 <=? n) && (n <=? 13) || (n =? 32) || (n =? 160))%Z.

Fixpoint trim_start (s : string) : string :=
  match s with
  | String c s' => if is_white c then trim_start s' else s
  | EmptyString => EmptyString
  end.

(** The sign, and the text after it. *)
Definition strip_sign (s : string) : bool * string :=
  match s with
  | String "-" s' => (true, s')
  | String "+" s' => (false, s')
  | _ => (false, s)
  end.

(** The radix (10, or 16 after a [0x]/[0X] prefix), and the text after
    the prefix. *)
Definition strip_prefix (s : string) : Z * string :=
  match s with
  | String "0" (String "x" s') => (16%Z, s')
  | String "0" (String "X" s') => (16%Z, s')
  | _ => (10%Z, s)
  end.

Definition digit_of (c : ascii) : option Z :=
  let n := code c in
  if ((48 <=? n) && (n <=? 57))%Z then Some (n - 48)%Z
  else if ((97 <=? n) && (n <=? 122))%Z then Some (n - 87)%Z
  else if ((65 <=? n) && (n <=? 90))%Z then Some (n - 55)%Z
  else None.

(** The value of the longest prefix of [s] made of radix-[R] digits;
    [acc] is the value read so far, [None] while no digit has been read. *)
Fixpoint digits (R : Z) (s : string) (acc : option Z) : option Z :=
  match s with
  | String c s' =>
      match digit_of c with
      | Some d =>
          if (d <? R)%Z
          then digits R s' (Some (match acc with Some a => a | None => 0 end * R + d)%Z)
          else acc
      | None => acc
      end
  | EmptyString => acc
  end.

(** The sign and the mathematical integer [parseInt] reads, or [None]
    when no digit follows the sign and prefix. *)
Definition parse_int_literal (s : string) : option (bool * Z) :=
  let '(neg, s1) := strip_sign (trim_start s) in
  let '(R, s2) := strip_prefix s1 in
  match digits R s2 None with
  | Some z => Some (neg, z)
  | None => None
  end.

Definition parseInt (s : string) : float :=
  match parse_int_literal s with
  | Some (neg, z) => if neg then (- of_Z z)%float else of_Z z
  | None => nan
  end.

(** Number::toString on an integral Number, as the template literal of a
    year applies it. *)
Definition Number_toString (z : Z) : string :=
  NilZero.string_of_int (Z.to_int z).

(** [s === lit] for [s : string | null]. *)
Definition strict_eq (s : option string) (lit : string) : bool :=
  match s with
  | Some v => String.eqb v lit
  | None => false
  end.

(** ToBoolean on [string | null]: [null] and the empty string are falsy. *)
Definition truthy_str (s : option string) : bool :=
  match s with
  | Some EmptyString => false
  | Some _ => true
  | None => false
  end.

End JS.

(** ** Data model *)

(** Modelled from the spec: the declaration of [TimelinePoint] is not
    among the sources; a point is a [period] label and a mapping from
    metric names to numbers.  The mapping lists the properties in the
    order [generateProjectionData] assigns them. *)
Record TimelinePoint := mkPoint {
  period : string;
  metrics : list (string * float)
}.

(** [point.k]: the value of property [k], if assigned. *)
Fixpoint get_metric (k : string) (ms : list (string * float)) : option float :=
  match ms with
  | [] => None
  | (k', v) :: ms' => if String.eqb k k' then Some v else get_metric k ms'
  end.

(** [point.k = v]: replaces the value of [k], or adds the property last. *)
Fixpoint set_metric (k : string) (v : float) (ms : list (string * float))
  : list (string * float) :=
  match ms with
  | [] => [(k, v)]
  | (k', v') :: ms' =>
      if String.eqb k k' then (k, v) :: ms' else (k', v') :: set_metric k v ms'
  end.

Definition assign (k : string) (v : float) (p : TimelinePoint) : TimelinePoint :=
  mkPoint (period p) (set_metric k v (metrics p)).

(** [point.k || 0] *)
Definition read_or0 (k : string) (p : TimelinePoint) : float :=
  match get_metric k (metrics p) with
  | Some v => JS.or_else v 0
  | None => 0%float
  end.

(** Modelled from the spec: the declaration of [SimulationMode] is not
    among the sources; the domain tag is one of PERSONAL, STUDENT,
    BUSINESS, GOVERNMENT, the ids of the mode tabs. *)
Inductive SimulationMode := PERSONAL | STUDENT | BUSINESS | GOVERNMENT.

(** The personal form state, with the fields of its initial value
    (lines 23-27); every field is the text of a form input. *)
Record PersonalProfile := mkPersonal {
  fullName : string;
  age : string;
  jobTitle : string;
  monthlyIncome : string;
  savings : string;
  healthStatus : string;
  socialStatus : string;
  lifestyle : string;
  decision : string
}.

(** The risk classifications of the design, and the [riskLevel] argument
    each one is passed as: the baseline [NONE] is [null]. *)
Inductive RiskClassification := NONE | DANGER | WARNING | NEUTRAL | POSITIVE.

Definition risk_arg (r : RiskClassification) : option string :=
  match r with
  | NONE => None
  | DANGER => Some "DANGER"%string
  | WARNING => Some "WARNING"%string
  | NEUTRAL => Some "NEUTRAL"%string
  | POSITIVE => Some "POSITIVE"%string
  end.

(** ** Core projection logic *)

Module Projection.

Import JS.
Open Scope float_scope.
Open Scope string_scope.

Definition years : nat := 5.

(** The risk multipliers of lines 76-88. *)
Definition growthFactor (riskLevel : option string) : float :=
  if strict_eq riskLevel "DANGER" then 0.8
  else if strict_eq riskLevel "WARNING" then 0.95
  else if strict_eq riskLevel "POSITIVE" then 1.1
  else 1.0.

Definition decayFactor (riskLevel : option string) : float :=
  if strict_eq riskLevel "DANGER" then 5
  else if strict_eq riskLevel "WARNING" then 2
  else if strict_eq riskLevel "POSITIVE" then -2
  else 0.

Definition clamp (val : float) : float := Math_max 0 (Math_min 100 val).

Section Personal.
Variable personalProfile : PersonalProfile.
Variable riskLevel : option string.

Definition incomeScore : float :=
  Math_min 100 (or_else (parseInt (monthlyIncome personalProfile)) 0 / 5000 * 50).

Definition savingsScore : float :=
  Math_min 100 (or_else (parseInt (savings personalProfile)) 0 / 10000 * 30).

Definition healthBase : float :=
  let healthBase :=
    if String.eqb (healthStatus personalProfile) "EXCELLENT" then 95
    else if String.eqb (healthStatus personalProfile) "GOOD" then 80
    else 60 in
  if String.eqb (lifestyle personalProfile) "STRESSED" then healthBase - 10
  else healthBase.

Definition wealthBase : float := (incomeScore + savingsScore) / 2.

Definition yearEffect (i : float) : float :=
  i * (if truthy_str riskLevel then decayFactor riskLevel else 0).

Definition wealthEffect (i : float) : float :=
  i * (if strict_eq riskLevel "DANGER" then -10
       else if strict_eq riskLevel "POSITIVE" then 10 else 5).

(** The factor applied to the wealth term on line 111. *)
Definition wealthDamper : float :=
  if strict_eq riskLevel "DANGER" then 0.9 else 1.

Definition personal_point (i : float) (point : TimelinePoint) : TimelinePoint :=
  let point := assign "health" (clamp ((healthBase - (i * 2)) - yearEffect i)) point in
  let point := assign "wealth" (clamp ((wealthBase + wealthEffect i) * wealthDamper)) point in
  let point := assign "relationships" (clamp (70 - yearEffect i)) point in
  assign "happiness"
    (clamp ((read_or0 "health" point + read_or0 "wealth" point
             + read_or0 "relationships" point) / 3)) point.
End Personal.

Definition business_point (riskLevel : option string) (i : float)
    (point : TimelinePoint) : TimelinePoint :=
  let baseGrowth := 50 in
  let riskEffect :=
    if strict_eq riskLevel "DANGER" then -10
    else if strict_eq riskLevel "POSITIVE" then 10 else 0 in
  let point := assign "revenue" (clamp (baseGrowth + (i * 10) + (i * riskEffect))) point in
  let point := assign "marketShare" (clamp (10 + (i * 5))) point in
  assign "innovation" (clamp (80 - (i * 2))) point.

Definition government_point (i : float) (point : TimelinePoint) : TimelinePoint :=
  let point := assign "economicGrowth" (clamp (30 + (i * 4))) point in
  let point := assign "publicSatisfaction" (clamp (50 + (Math_sin i * 10))) point in
  assign "socialStability" (clamp (60 + (i * 2))) point.

Definition student_point (i : float) (point : TimelinePoint) : TimelinePoint :=
  let point := assign "academicFit" (clamp (70 + (i * 2))) point in
  let point := assign "marketDemand" (clamp (60 + (i * 5))) point in
  let point := assign "skillDevelopment" (clamp (20 + (i * 15))) point in
  assign "financialProspects"
    (clamp (read_or0 "marketDemand" point * 0.8
            + read_or0 "skillDevelopment" point * 0.2)) point.

Section Generate.
(** What the closure reads besides its arguments: the personal form
    state, and the year of the clock at the time of the call. *)
Variable personalProfile : PersonalProfile.
Variable startYear : Z.
Variable currentMode : SimulationMode.
Variable riskLevel : option string.

(** The body of the loop for counter [i].  The counter is an integral
    Number from 0 upwards: [of_nat i] is its value in the metric formulas,
    and the year label is the decimal string of the sum. *)
Definition point_at (i : nat) : TimelinePoint :=
  let yearLabel := Number_toString (startYear + Z.of_nat i) in
  let point := mkPoint yearLabel [] in
  match currentMode with
  | PERSONAL => personal_point personalProfile riskLevel (of_nat i) point
  | BUSINESS => business_point riskLevel (of_nat i) point
  | GOVERNMENT => government_point (of_nat i) point
  | STUDENT => student_point (of_nat i) point
  end.

(** [for (let i = ...; i <= years; i++) { ...; points.push(point) }],
    with [fuel] bounding the number of iterations. *)
Fixpoint for_loop (fuel i : nat) (points : list TimelinePoint)
  : list TimelinePoint :=
  match fuel with
  | O => points
  | S fuel' =>
      if (i <=? years)%nat
      then for_loop fuel' (S i) (points ++ [point_at i])
      else points
  end.

Definition generateProjectionData : list TimelinePoint :=
  for_loop (S (S years)) 0 [].
End Generate.

End Projection.

(** ** Analysis handler *)

Module Controller.

Import JS Projection.
Open Scope string_scope.

Record Swot := mkSwot {
  strengths : list string;
  weaknesses : list string;
  opportunities : list string;
  threats : list string
}.

(** Modelled from the spec: the declaration of [AnalysisResult] is not
    among the sources; its fields are those of the design's data model,
    which are the ones the component reads. *)
Record AnalysisResult := mkResult {
  riskLevel : string;
  swot : Swot;
  prediction : string;
  strategy : string;
  executionSteps : list string
}.

Record BusinessProfile := mkBusiness {
  companyName : string;
  industry : string;
  capital : string;
  targetMarket : string;
  bizDecision : string
}.

Record GovernmentProfile := mkGovernment {
  entityName : string;
  sector : string;
  population : string;
  challenges : string;
  goals : string;
  planningPeriod : string
}.

(** The state hooks of the component. *)
Record AppState := mkState {
  mode : SimulationMode;
  data : list TimelinePoint;
  logs : list string;
  analysisResult : option AnalysisResult;
  isAnalyzing : bool;
  personalProfile : PersonalProfile;
  studentLevel : string;
  studentStream : string;
  subjects : list (string * string);
  electiveSubject : string;
  hobbies : string;
  bizProfile : BusinessProfile;
  govProfile : GovernmentProfile
}.

(** What one reading of the clock gives: the calendar year, and the time
    of day as [toLocaleTimeString] prints it. *)
Record Clock := mkClock {
  year : Z;
  timeString : string
}.

Definition setData (d : list TimelinePoint) (s : AppState) : AppState :=
  mkState (mode s) d (logs s) (analysisResult s) (isAnalyzing s)
    (personalProfile s) (studentLevel s) (studentStream s) (subjects s)
    (electiveSubject s) (hobbies s) (bizProfile s) (govProfile s).

Definition setLogs (l : list string) (s : AppState) : AppState :=
  mkState (mode s) (data s) l (analysisResult s) (isAnalyzing s)
    (personalProfile s) (studentLevel s) (studentStream s) (subjects s)
    (electiveSubject s) (hobbies s) (bizProfile s) (govProfile s).

Definition setAnalysisResult (r : option AnalysisResult) (s : AppState) : AppState :=
  mkState (mode s) (data s) (logs s) r (isAnalyzing s)
    (personalProfile s) (studentLevel s) (studentStream s) (subjects s)
    (electiveSubject s) (hobbies s) (bizProfile s) (govProfile s).

Definition setIsAnalyzing (b : bool) (s : AppState) : AppState :=
  mkState (mode s) (data s) (logs s) (analysisResult s) b
    (personalProfile s) (studentLevel s) (studentStream s) (subjects s)
    (electiveSubject s) (hobbies s) (bizProfile s) (govProfile s).

Definition mode_tag (m : SimulationMode) : string :=
  match m with
  | PERSONAL => "PERSONAL"
  | STUDENT => "STUDENT"
  | BUSINESS => "BUSINESS"
  | GOVERNMENT => "GOVERNMENT"
  end.

(** [setLogs(prev => [`[${time}] ${msg}`, ...prev].slice(50))] *)
Definition addLog (c : Clock) (msg : string) (s : AppState) : AppState :=
  setLogs (skipn 50 (("[" ++ timeString c ++ "] " ++ msg) :: logs s)) s.

(** [subjects[k]] and [{...subjects, [k]: v}] on the subject grades. *)
Fixpoint lookup (k : string) (o : list (string * string)) : option string :=
  match o with
  | [] => None
  | (k', v) :: o' => if String.eqb k k' then Some v else lookup k o'
  end.

Fixpoint upsert (k v : string) (o : list (string * string)) : list (string * string) :=
  match o with
  | [] => [(k, v)]
  | (k', v') :: o' =>
      if String.eqb k k' then (k, v) :: o' else (k', v') :: upsert k v o'
  end.

(** The object handed to [JSON.stringify].  The JSON text is not part of
    the embedding; it is never empty for an object, so [promptData] is
    [Some] of the serialised value, and [None] stands for the initial
    empty string. *)
Inductive Payload :=
| PersonalJson (p : PersonalProfile)
| StudentJson (level stream : string) (subjects : list (string * string))
    (hobbies : string)
| BusinessJson (b : BusinessProfile)
| GovernmentJson (g : GovernmentProfile).

Definition promptData_of (s : AppState) : option Payload :=
  match mode s with
  | PERSONAL => Some (PersonalJson (personalProfile s))
  | STUDENT =>
      let elective :=
        match lookup (electiveSubject s) (subjects s) with
        | Some EmptyString | None => "0"
        | Some v => v
        end in
      Some (StudentJson (studentLevel s) (studentStream s)
              (upsert (electiveSubject s) elective (subjects s)) (hobbies s))
  | BUSINESS => Some (BusinessJson (bizProfile s))
  | GOVERNMENT => Some (GovernmentJson (govProfile s))
  end.

(** Modelled from the spec: [getGeminiResponse] is not among the sources.
    Each request yields one [AnalysisResult] or an empty result; as a
    promise it may also be rejected. *)
Inductive Outcome :=
| Fulfilled (result : option AnalysisResult)
| Rejected.

(** An execution of the asynchronous handler: it has run to its end, or
    it is suspended at its [await] with the request it sent and the rest
    of its body.  The rest reads the clock again, and applies its state
    updates to the state current when it resumes. *)
Inductive Run :=
| Done (s : AppState)
| Await (s : AppState) (promptData : Payload) (tag : SimulationMode)
    (resume : Clock -> Outcome -> AppState -> AppState).

(** [runAnalysis], called in state [s] at clock reading [c].  The closure
    reads [mode] and the form states of [s] throughout, also after the
    [await]. *)
Definition runAnalysis (c : Clock) (s : AppState) : Run :=
  let generate := generateProjectionData (personalProfile s) in
  let st := setIsAnalyzing true s in
  let st := setAnalysisResult None st in
  let st := addLog c ("Generating analysis for " ++ mode_tag (mode s) ++ "...") st in
  let st := setData (generate (year c) (mode s) None) st in
  match promptData_of s with
  | Some promptData =>
      Await st promptData (mode s)
        (fun c' outcome st =>
           match outcome with
           | Rejected => st
           | Fulfilled result =>
               let st := setAnalysisResult result st in
               let st :=
                 match result with
                 | Some r => setData (generate (year c') (mode s) (Some (riskLevel r))) st
                 | None => st
                 end in
               let st := setIsAnalyzing false st in
               addLog c' "Analysis complete." st
           end)
  | None =>
      let st := setIsAnalyzing false st in
      Done (addLog c "Analysis complete." st)
  end.

(** The state once the handler has settled, when nothing else updates the
    state while it is suspended. *)
Definition settle (r : Run) (c' : Clock) (o : Outcome) : AppState :=
  match r with
  | Done s => s
  | Await s _ _ resume => resume c' o s
  end.

End Controller.

(** ** Form and tab handlers *)

Module Handlers.

Import JS Projection Controller.
Open Scope string_scope.

Definition setMode (m : SimulationMode) (s : AppState) : AppState :=
  mkState m (data s) (logs s) (analysisResult s) (isAnalyzing s)
    (personalProfile s) (studentLevel s) (studentStream s) (subjects s)
    (electiveSubject s) (hobbies s) (bizProfile s) (govProfile s).

Definition setStudentLevel (l : string) (s : AppState) : AppState :=
  mkState (mode s) (data s) (logs s) (analysisResult s) (isAnalyzing s)
    (personalProfile s) l (studentStream s) (subjects s)
    (electiveSubject s) (hobbies s) (bizProfile s) (govProfile s).

Definition setStudentStream (t : string) (s : AppState) : AppState :=
  mkState (mode s) (data s) (logs s) (analysisResult s) (isAnalyzing s)
    (personalProfile s) (studentLevel s) t (subjects s)
    (electiveSubject s) (hobbies s) (bizProfile s) (govProfile s).

Definition setSubjects (o : list (string * string)) (s : AppState) : AppState :=
  mkState (mode s) (data s) (logs s) (analysisResult s) (isAnalyzing s)
    (personalProfile s) (studentLevel s) (studentStream s) o
    (electiveSubject s) (hobbies s) (bizProfile s) (govProfile s).

Definition setElectiveSubject (e : string) (s : AppState) : AppState :=
  mkState (mode s) (data s) (logs s) (analysisResult s) (isAnalyzing s)
    (personalProfile s) (studentLevel s) (studentStream s) (subjects s)
    e (hobbies s) (bizProfile s) (govProfile s).

Definition setHobbies (h : string) (s : AppState) : AppState :=
  mkState (mode s) (data s) (logs s) (analysisResult s) (isAnalyzing s)
    (personalProfile s) (studentLevel s) (studentStream s) (subjects s)
    (electiveSubject s) h (bizProfile s) (govProfile s).

(** [resetData], lines 58-62. *)
Definition resetData (c : Clock) (s : AppState) : AppState :=
  let st := setData [] s in
  let st := setAnalysisResult None st in
  addLog c ("System ready in " ++ mode_tag (mode s) ++ " mode.") st.

Definition mode_eqb (a b : SimulationMode) : bool :=
  match a, b with
  | PERSONAL, PERSONAL | STUDENT, STUDENT
  | BUSINESS, BUSINESS | GOVERNMENT, GOVERNMENT => true
  | _, _ => false
  end.

(** A click on a mode tab: [setMode(t.id)], then the effect that depends
    on [mode] (lines 47-49).  Setting the value the state already has
    renders nothing anew, and no effect runs. *)
Definition selectMode (c : Clock) (m : SimulationMode) (s : AppState) : AppState :=
  if mode_eqb m (mode s) then s else resetData c (setMode m s).

(** The effect that depends on the stream and the level (lines 52-56). *)
Definition resetElective (s : AppState) : AppState :=
  setSubjects [] (setElectiveSubject "" s).

(** The subject lists of [renderStudentInputs] (lines 240-262).  The
    names are compared for equality only; they are written in UTF-8. *)
Definition primarySubjects : list string :=
  ["اللغة العربية"; "الرياضيات"; "اللغة الإنجليزية"; "التربية الإسلامية";
   "التربية التقنية"; "التربية الفنية"; "التربية الوطنية"].

Definition middleSubjects : list string :=
  ["اللغة العربية"; "الرياضيات"; "اللغة الإنجليزية"; "التربية الإسلامية";
   "التربية التقنية"; "التربية الفنية"; "التربية الوطنية";
   "الجغرافيا"; "التاريخ"; "العلوم"; "تكنولوجيا المعلومات والاتصالات"].

Definition scientificCore : list string :=
  ["اللغة العربية"; "التربية الإسلامية"; "اللغة الإنجليزية";
   "الرياضيات المتخصصة"; "الفيزياء"; "الكيمياء"].

Definition scientificElectives : list string :=
  ["الأحياء"; "العلوم الهندسية"; "الحاسوب"].

Definition literaryCore : list string :=
  ["اللغة العربية"; "التربية الإسلامية"; "اللغة الإنجليزية";
   "الرياضيات الأساسية"; "الجغرافيا"; "التاريخ"].

Definition literaryElectives : list string :=
  ["الدراسات الإسلامية"; "العلوم العسكرية"; "الأدب الإنجليزي";
   "اللغة العربية المتقدمة"].

Definition activeCoreSubjects (s : AppState) : list string :=
  if String.eqb (studentLevel s) "PRIMARY" then primarySubjects
  else if String.eqb (studentLevel s) "MIDDLE" then middleSubjects
  else if String.eqb (studentStream s) "SCIENTIFIC" then scientificCore
  else literaryCore.

Definition activeElectives (s : AppState) : list string :=
  if String.eqb (studentLevel s) "SECONDARY"
  then (if String.eqb (studentStream s) "SCIENTIFIC"
        then scientificElectives else literaryElectives)
  else [].

Definition member (k : string) (l : list string) : bool :=
  existsb (String.eqb k) l.

(** What the user can do on the student form. *)
Inductive Event :=
| ClickLevel (l : string)
| ClickStream (t : string)
| ChangeGrade (sub v : string)
| ChangeElective (opt : string)
| ChangeElectiveGrade (v : string)
| ChangeHobbies (v : string).

(** Whether the rendered form offers the event: the three level buttons;
    the two stream buttons and the elective select, at SECONDARY only; a
    grade input for each active core subject; the elective's grade input
    once an elective is selected; the hobbies text at PRIMARY and MIDDLE. *)
Definition offered (e : Event) (s : AppState) : bool :=
  match e with
  | ClickLevel l => member l ["PRIMARY"; "MIDDLE"; "SECONDARY"]
  | ClickStream t =>
      String.eqb (studentLevel s) "SECONDARY"
      && member t ["SCIENTIFIC"; "LITERARY"]
  | ChangeGrade sub _ => member sub (activeCoreSubjects s)
  | ChangeElective opt =>
      String.eqb (studentLevel s) "SECONDARY"
      && (String.eqb opt "" || member opt (activeElectives s))
  | ChangeElectiveGrade _ =>
      String.eqb (studentLevel s) "SECONDARY"
      && truthy_str (Some (electiveSubject s))
  | ChangeHobbies _ =>
      String.eqb (studentLevel s) "PRIMARY" || String.eqb (studentLevel s) "MIDDLE"
  end.

(** The handler of each event, with the effect it triggers when the
    level or the stream changes. *)
Definition handle (e : Event) (s : AppState) : AppState :=
  match e with
  | ClickLevel l =>
      if String.eqb l (studentLevel s) then s
      else resetElective (setStudentLevel l s)
  | ClickStream t =>
      if String.eqb t (studentStream s) then s
      else resetElective (setStudentStream t s)
  | ChangeGrade sub v => setSubjects (upsert sub v (subjects s)) s
  | ChangeElective opt => setElectiveSubject opt s
  | ChangeElectiveGrade v =>
      setSubjects (upsert (electiveSubject s) v (subjects s)) s
  | ChangeHobbies v => setHobbies v s
  end.

(** The state after a sequence of events, each one offered when it
    happens; [None] when one is not. *)
Fixpoint play (es : list Event) (s : AppState) : option AppState :=
  match es with
  | [] => Some s
  | e :: es' => if offered e s then play es' (handle e s) else None
  end.

End Handlers.

(** ** Vocabulary of the properties *)

(** Classes of [spec_float] values. *)
Module SF.

Definition is_nan (x : spec_float) : bool :=
  match x with S754_nan => true | _ => false end.

Definition is_pinf (x : spec_float) : bool :=
  match x with S754_infinity false => true | _ => false end.

Definition is_finite (x : spec_float) : bool :=
  match x with S754_zero _ | S754_finite _ _ _ => true | _ => false end.

Definition is_finite_nz (x : spec_float) : bool :=
  match x with S754_finite _ _ _ => true | _ => false end.

End SF.

(** The closed interval [0, 100]; NaN is outside. *)
Definition in_range (v : float) : bool := ((0 <=? v) && (v <=? 100))%float.

Definition point_in_range (p : TimelinePoint) : Prop :=
  Forall (fun kv => in_range (snd kv) = true) (metrics p).

(** Metric [k] of the point at year offset [i]. *)
Definition metric_at (points : list TimelinePoint) (i : nat) (k : string)
  : option float :=
  match nth_error points i with
  | Some p => get_metric k (metrics p)
  | None => None
  end.

Definition metrics_at_year3 (points : list TimelinePoint)
  : option (list (string * float)) :=
  option_map metrics (nth_error points 3).

(** [v] is within [tol] of [x]. *)
Definition near (v x tol : float) : bool := (abs (v - x) <=? tol)%float.

(** No number can be read from [s]: no digit follows the white space,
    sign and radix prefix. *)
Definition unparseable (s : string) : Prop := JS.parse_int_literal s = None.

(** The growthFactor column of the risk modulation table. *)
Definition table_growthFactor (r : RiskClassification) : float :=
  match r with
  | NONE => 1.0
  | DANGER => 0.8
  | WARNING => 0.95
  | POSITIVE => 1.1
  | NEUTRAL => 1.0
  end%float.

(** The metric names of each domain, in the order its branch assigns
    them. *)
Definition domain_keys (m : SimulationMode) : list string :=
  match m with
  | PERSONAL => ["health"; "wealth"; "relationships"; "happiness"]
  | BUSINESS => ["revenue"; "marketShare"; "innovation"]
  | GOVERNMENT => ["economicGrowth"; "publicSatisfaction"; "socialStability"]
  | STUDENT => ["academicFit"; "marketDemand"; "skillDevelopment";
                "financialProspects"]
  end%string.

(** The state a run holds while it is suspended, and the rest of its
    body. *)
Definition pending_state (r : Controller.Run) : option Controller.AppState :=
  match r with
  | Controller.Await st _ _ _ => Some st
  | Controller.Done _ => None
  end.

Definition resume_of (r : Controller.Run)
  : Controller.Clock -> Controller.Outcome -> Controller.AppState -> Controller.AppState :=
  match r with
  | Controller.Await _ _ _ resume => resume
  | Controller.Done _ => fun _ _ st => st
  end.

(** The subjects object of a student payload. *)
Definition payload_subjects (p : option Controller.Payload)
  : option (list (string * string)) :=
  match p with
  | Some (Controller.StudentJson _ _ subs _) => Some subs
  | _ => None
  end.

(** The student form is consistent: the selected elective is none or one
    the form offers, and every graded subject is an active core subject
    or an elective the form offers. *)
Definition student_form_ok (s : Controller.AppState) : Prop :=
  (Controller.electiveSubject s = ""%string \/
   In (Controller.electiveSubject s) (Handlers.activeElectives s)) /\
  forall k, Controller.lookup k (Controller.subjects s) <> None ->
    In k (Handlers.activeCoreSubjects s) \/ In k (Handlers.activeElectives s).

Definition is_decimal_digit (c : ascii) : bool :=
  ((48 <=? JS.code c) && (JS.code c <=? 57))%Z.

Fixpoint all_decimal (s : string) : bool :=
  match s with
  | EmptyString => true
  | String c s' => is_decimal_digit c && all_decimal s'
  end.

(** The initial values of the state hooks (lines 13-44). *)
Definition initialState : Controller.AppState :=
  Controller.mkState PERSONAL [] [] None false
    (mkPersonal "" "" "" "" "" "GOOD" "SINGLE" "ACTIVE" "")
    "SECONDARY" "SCIENTIFIC" [] "" ""
    (Controller.mkBusiness "" "تكنولوجيا" "" "" "")
    (Controller.mkGovernment "" "" "" "" "" "MEDIUM").

(** The text does not start with [x] or [X]. *)
Definition head_not_x (s : string) : bool :=
  match s with
  | String b _ => negb (Ascii.eqb b "x" || Ascii.eqb b "X")
  | EmptyString => true
  end.

(** The state after clicks on mode tabs, each with the clock reading of
    its effect, in order. *)
Definition after_clicks (clicks : list (Controller.Clock * SimulationMode))
    (s : Controller.AppState) : Controller.AppState :=
  fold_left (fun st cm => Handlers.selectMode (fst cm) (snd cm) st) clicks s.

(** Every click is on the tab of mode [m]. *)
Definition all_on (m : SimulationMode)
    (clicks : list (Controller.Clock * SimulationMode)) : bool :=
  forallb (fun cm => Handlers.mode_eqb (snd cm) m) clicks.

(** A minus sign and 400 nines: an integer below every finite Number. *)
Definition huge_negative : string :=
  String "-" (string_of_list_ascii (repeat "9"%char 400)).

(** ** Facts on the binary64 specification *)

Module SFFacts.
Section Generic.
Variables prec emax : Z.

Lemma shr_1_nonneg mrs : (0 <= shr_m mrs)%Z -> (0 <= shr_m (shr_1 mrs))%Z.
Proof.
  destruct mrs as [m r s]; destruct m as [|p|p]; simpl; intros H;
    try lia; destruct p; simpl; lia.
Qed.

Lemma iter_shr_1_nonneg p : forall mrs,
  (0 <= shr_m mrs)%Z -> (0 <= shr_m (iter_pos shr_1 p mrs))%Z.
Proof.
  induction p as [p IH|p IH|]; simpl; intros mrs H.
  - apply IH, IH, shr_1_nonneg, H.
  - apply IH, IH, H.
  - apply shr_1_nonneg, H.
Qed.

Lemma shr_nonneg mrs e n :
  (0 <= shr_m mrs)%Z -> (0 <= shr_m (fst (shr mrs e n)))%Z.
Proof.
  intros H; destruct n; simpl; auto using iter_shr_1_nonneg.
Qed.

Lemma shr_fexp_nonneg m e l :
  (0 <= m)%Z -> (0 <= shr_m (fst (shr_fexp prec emax m e l)))%Z.
Proof.
  intros H; unfold shr_fexp; apply shr_nonneg.
  destruct l as [|[]]; simpl; exact H.
Qed.

Lemma round_nearest_even_nonneg m l :
  (0 <= m)%Z -> (0 <= round_nearest_even m l)%Z.
Proof.
  intros H; destruct l as [|[]]; simpl; try lia.
  destruct (Z.even m); lia.
Qed.

Lemma binary_round_aux_not_nan s m e l :
  (0 <= m)%Z -> SF.is_nan (binary_round_aux prec emax s m e l) = false.
Proof.
  intros H; unfold binary_round_aux.
  pose proof (shr_fexp_nonneg m e l H) as H1.
  destruct (shr_fexp prec emax m e l) as [mrs' e']; simpl in H1.
  pose proof (shr_fexp_nonneg _ e' loc_Exact
                (round_nearest_even_nonneg _ (loc_of_shr_record mrs') H1)) as H2.
  destruct (shr_fexp prec emax _ e' loc_Exact) as [mrs'' e'']; simpl in H2.
  destruct (shr_m mrs'') as [|q|q]; try reflexivity; try lia.
  destruct (Z.leb e'' _); reflexivity.
Qed.

Lemma binary_round_not_nan s m e :
  SF.is_nan (binary_round prec emax s m e) = false.
Proof.
  unfold binary_round.
  destruct (shl_align _ _ _) as [mz ez].
  apply binary_round_aux_not_nan; lia.
Qed.

Lemma binary_normalize_not_nan m e sz :
  SF.is_nan (binary_normalize prec emax m e sz) = false.
Proof.
  destruct m; simpl; auto using binary_round_not_nan.
Qed.

Lemma SFmul_not_nan x y :
  SF.is_nan x = false -> SF.is_finite_nz y = true ->
  SF.is_nan (SFmul prec emax x y) = false.
Proof.
  destruct x as [sx|sx| |sx mx ex], y as [sy|sy| |sy my ey];
    simpl; try congruence; intros _ _.
  apply binary_round_aux_not_nan; lia.
Qed.

Lemma SFdiv_not_nan x y :
  SF.is_nan x = false -> SF.is_finite_nz y = true ->
  SF.is_nan (SFdiv prec emax x y) = false.
Proof.
  destruct x as [sx|sx| |sx mx ex], y as [sy|sy| |sy my ey];
    simpl; try congruence; intros _ _.
  unfold SFdiv_core_binary.
  set (m' := match _ with Z0 => _ | Zpos _ => _ | Zneg _ => _ end).
  assert (Hm : (0 <= m')%Z).
  { subst m'. destruct (_ - _ - _)%Z; try lia. apply Z.shiftl_nonneg. lia. }
  pose proof (Z.div_pos m' (Zpos my) Hm eq_refl) as Hq.
  unfold Z.div in Hq.
  destruct (Z.div_eucl m' (Zpos my)) as [q r]; simpl in Hq.
  apply binary_round_aux_not_nan; exact Hq.
Qed.

Lemma SFadd_not_nan x y :
  SF.is_nan x = false -> SF.is_nan y = false ->
  SF.is_pinf x = false -> SF.is_pinf y = false ->
  SF.is_nan (SFadd prec emax x y) = false.
Proof.
  destruct x as [sx|sx| |sx mx ex], y as [sy|sy| |sy my ey];
    try (intros; apply binary_normalize_not_nan);
    simpl; try congruence; intros _ _;
    try (destruct sx; simpl; try congruence);
    try (destruct sy; simpl; try congruence); intros; reflexivity.
Qed.

Lemma SFadd_finite_r_not_nan x y :
  SF.is_nan x = false -> SF.is_finite y = true ->
  SF.is_nan (SFadd prec emax x y) = false.
Proof.
  destruct x as [sx|sx| |sx mx ex], y as [sy|sy| |sy my ey];
    try (intros; apply binary_normalize_not_nan);
    simpl; try congruence; intros _ _;
    try (destruct sx; reflexivity);
    destruct sx, sy; reflexivity.
Qed.

Lemma SFcompare_refl x : SF.is_nan x = false -> SFcompare x x = Some Eq.
Proof.
  destruct x as [sx|sx| |sx mx ex]; simpl; try congruence; intros _.
  - destruct sx; reflexivity.
  - destruct sx; rewrite Z.compare_refl, Pos.compare_cont_refl; reflexivity.
Qed.

Lemma SFcompare_nan_l y : SFcompare S754_nan y = None.
Proof. reflexivity. Qed.

Lemma SFcompare_nan_r x : SFcompare x S754_nan = None.
Proof. destruct x; reflexivity. Qed.

End Generic.
End SFFacts.

(** ** Facts on the host functions *)

Module FloatFacts.
Import JS Projection.
Open Scope float_scope.

Lemma is_nan_spec x : PrimFloat.is_nan x = SF.is_nan (Prim2SF x).
Proof.
  unfold PrimFloat.is_nan. rewrite FloatAxioms.eqb_spec. unfold SFeqb.
  destruct (SF.is_nan (Prim2SF x)) eqn:E.
  - destruct (Prim2SF x); try discriminate. reflexivity.
  - rewrite SFFacts.SFcompare_refl by exact E. reflexivity.
Qed.

Lemma mul_not_nan x c :
  PrimFloat.is_nan x = false -> SF.is_finite_nz (Prim2SF c) = true ->
  PrimFloat.is_nan (x * c) = false.
Proof.
  rewrite !is_nan_spec, mul_spec. apply SFFacts.SFmul_not_nan.
Qed.

Lemma div_not_nan x c :
  PrimFloat.is_nan x = false -> SF.is_finite_nz (Prim2SF c) = true ->
  PrimFloat.is_nan (x / c) = false.
Proof.
  rewrite !is_nan_spec, div_spec. apply SFFacts.SFdiv_not_nan.
Qed.

Lemma add_not_nan x y :
  PrimFloat.is_nan x = false -> PrimFloat.is_nan y = false ->
  SF.is_pinf (Prim2SF x) = false -> SF.is_pinf (Prim2SF y) = false ->
  PrimFloat.is_nan (x + y) = false.
Proof.
  rewrite !is_nan_spec, add_spec. apply SFFacts.SFadd_not_nan.
Qed.

Lemma add_finite_not_nan x c :
  PrimFloat.is_nan x = false -> SF.is_finite (Prim2SF c) = true ->
  PrimFloat.is_nan (x + c) = false.
Proof.
  rewrite !is_nan_spec, add_spec. apply SFFacts.SFadd_finite_r_not_nan.
Qed.

Lemma ltb_leb a b : (a <? b) = true -> (a <=? b) = true.
Proof.
  rewrite FloatAxioms.ltb_spec, FloatAxioms.leb_spec. unfold SFltb, SFleb.
  destruct (SFcompare _ _) as [[]|]; congruence.
Qed.

Lemma ltb_100_not_pinf x : (x <? 100) = true -> SF.is_pinf (Prim2SF x) = false.
Proof.
  rewrite FloatAxioms.ltb_spec. unfold SFltb.
  destruct (Prim2SF x) as [s|[]| |s m e]; try reflexivity.
  vm_compute. discriminate.
Qed.

Lemma in_range_finite v : in_range v = true -> SF.is_finite (Prim2SF v) = true.
Proof.
  unfold in_range. rewrite !FloatAxioms.leb_spec. unfold SFleb.
  destruct (Prim2SF v) as [s|[]| |s m e]; try reflexivity; vm_compute;
    intros H; discriminate H.
Qed.

Lemma finite_not_nan v : SF.is_finite (Prim2SF v) = true -> PrimFloat.is_nan v = false.
Proof. rewrite is_nan_spec. destruct (Prim2SF v); simpl; congruence. Qed.

Lemma is_nan_100 : PrimFloat.is_nan 100 = false. Proof. reflexivity. Qed.
Lemma is_nan_0 : PrimFloat.is_nan 0 = false. Proof. reflexivity. Qed.

Lemma Math_min_100 x :
  PrimFloat.is_nan x = false ->
  Math_min 100 x = if x <? 100 then x else 100.
Proof.
  intros H. unfold Math_min. rewrite H, is_nan_100. simpl orb. cbv iota.
  destruct (x <? 100); [reflexivity|].
  replace (is_pos_zero 100) with false by reflexivity.
  rewrite andb_false_r. reflexivity.
Qed.

Lemma Math_max_0 m :
  PrimFloat.is_nan m = false ->
  Math_max 0 m = if 0 <? m then m else 0.
Proof.
  intros H. unfold Math_max. rewrite H, is_nan_0. simpl orb. cbv iota.
  destruct (0 <? m); [reflexivity|].
  replace (is_neg_zero 0) with false by reflexivity.
  rewrite andb_false_r. reflexivity.
Qed.

Lemma Math_min_100_not_nan x :
  PrimFloat.is_nan x = false -> PrimFloat.is_nan (Math_min 100 x) = false.
Proof.
  intros H. rewrite Math_min_100 by exact H. destruct (x <? 100); auto.
Qed.

Lemma Math_min_100_not_pinf x :
  PrimFloat.is_nan x = false -> SF.is_pinf (Prim2SF (Math_min 100 x)) = false.
Proof.
  intros H. rewrite Math_min_100 by exact H.
  destruct (x <? 100) eqn:E; [apply ltb_100_not_pinf, E | reflexivity].
Qed.

Lemma clamp_in_range x : PrimFloat.is_nan x = false -> in_range (clamp x) = true.
Proof.
  intros H. unfold clamp.
  rewrite Math_max_0 by (apply Math_min_100_not_nan, H).
  rewrite Math_min_100 by exact H. unfold in_range.
  destruct (x <? 100) eqn:E1.
  - destruct (0 <? x) eqn:E2; [|reflexivity].
    rewrite (ltb_leb _ _ E1), (ltb_leb _ _ E2). reflexivity.
  - reflexivity.
Qed.

Lemma or_else_0_finite v : in_range v = true -> SF.is_finite (Prim2SF (or_else v 0)) = true.
Proof.
  intros H. unfold or_else. destruct (truthy v); [apply in_range_finite, H | reflexivity].
Qed.

Lemma or_else_0_not_nan v : PrimFloat.is_nan (or_else v 0) = false.
Proof.
  unfold or_else, truthy. destruct (PrimFloat.is_nan v) eqn:E; simpl; [reflexivity|].
  destruct (PrimFloat.is_zero v); simpl; auto.
Qed.

End FloatFacts.

(** ** Facts on the projection *)

Module ProjectionFacts.
Import JS Projection FloatFacts.
Open Scope float_scope.
Open Scope string_scope.

(** The loop ends by its own test after the counters 0..5: any fuel from
    7 on gives the six points, in order. *)
Lemma for_loop_enough_fuel pp y m r fuel :
  (7 <= fuel)%nat ->
  for_loop pp y m r fuel 0 [] = map (point_at pp y m r) (seq 0 6).
Proof.
  intros H.
  destruct fuel as [|[|[|[|[|[|[|fuel]]]]]]]; try (exfalso; lia).
  reflexivity.
Qed.

Lemma generate_points pp y m r :
  generateProjectionData pp y m r = map (point_at pp y m r) (seq 0 6).
Proof. apply for_loop_enough_fuel. unfold years. lia. Qed.

(** The multiplier the code computes on lines 76-88 is the growthFactor
    column of the table. *)
Lemma growthFactor_table r : growthFactor (risk_arg r) = table_growthFactor r.
Proof. destruct r; reflexivity. Qed.

Lemma personal_metrics pp r i l :
  metrics (personal_point pp r i (mkPoint l [])) =
  let h := clamp ((healthBase pp - (i * 2)) - yearEffect r i) in
  let w := clamp ((wealthBase pp + wealthEffect r i) * wealthDamper r) in
  let rel := clamp (70 - yearEffect r i) in
  [("health", h); ("wealth", w); ("relationships", rel);
   ("happiness", clamp ((or_else h 0 + or_else w 0 + or_else rel 0) / 3))].
Proof. reflexivity. Qed.

Ltac counter_cases i :=
  destruct i as [|[|[|[|[|[|?]]]]]]; [ .. | exfalso; lia ].

Ltac risk_cases r :=
  destruct (truthy_str r);
  destruct (strict_eq r "DANGER");
  destruct (strict_eq r "WARNING");
  destruct (strict_eq r "POSITIVE").

Lemma health_in_range pp r i :
  (i <= 5)%nat ->
  in_range (clamp ((healthBase pp - (of_nat i * 2)) - yearEffect r (of_nat i))) = true.
Proof.
  intros Hi. unfold healthBase, yearEffect, decayFactor.
  destruct (String.eqb (healthStatus pp) "EXCELLENT");
  destruct (String.eqb (healthStatus pp) "GOOD");
  destruct (String.eqb (lifestyle pp) "STRESSED");
  risk_cases r; counter_cases i; vm_compute; reflexivity.
Qed.

Lemma relationships_in_range r i :
  (i <= 5)%nat -> in_range (clamp (70 - yearEffect r (of_nat i))) = true.
Proof.
  intros Hi. unfold yearEffect, decayFactor.
  risk_cases r; counter_cases i; vm_compute; reflexivity.
Qed.

Lemma score_not_nan s d k :
  SF.is_finite_nz (Prim2SF d) = true -> SF.is_finite_nz (Prim2SF k) = true ->
  PrimFloat.is_nan (or_else (parseInt s) 0 / d * k) = false.
Proof.
  intros Hd Hk. apply mul_not_nan; [|exact Hk].
  apply div_not_nan; [|exact Hd]. apply or_else_0_not_nan.
Qed.

Lemma wealthBase_not_nan pp : PrimFloat.is_nan (wealthBase pp) = false.
Proof.
  unfold wealthBase, incomeScore, savingsScore.
  apply div_not_nan; [|reflexivity].
  apply add_not_nan;
    auto using Math_min_100_not_nan, Math_min_100_not_pinf, score_not_nan.
Qed.

Lemma wealthEffect_finite r i :
  (i <= 5)%nat -> SF.is_finite (Prim2SF (wealthEffect r (of_nat i))) = true.
Proof.
  intros Hi. unfold wealthEffect.
  destruct (strict_eq r "DANGER"); destruct (strict_eq r "POSITIVE");
    counter_cases i; vm_compute; reflexivity.
Qed.

Lemma wealthDamper_finite r : SF.is_finite_nz (Prim2SF (wealthDamper r)) = true.
Proof. unfold wealthDamper. destruct (strict_eq r "DANGER"); reflexivity. Qed.

Lemma wealth_in_range pp r i :
  (i <= 5)%nat ->
  in_range (clamp ((wealthBase pp + wealthEffect r (of_nat i)) * wealthDamper r)) = true.
Proof.
  intros Hi. apply clamp_in_range, mul_not_nan; [|apply wealthDamper_finite].
  apply add_finite_not_nan; [apply wealthBase_not_nan | apply wealthEffect_finite, Hi].
Qed.

Lemma happiness_in_range h w rel :
  in_range h = true -> in_range w = true -> in_range rel = true ->
  in_range (clamp ((or_else h 0 + or_else w 0 + or_else rel 0) / 3)) = true.
Proof.
  intros Hh Hw Hr. apply clamp_in_range, div_not_nan; [|reflexivity].
  apply add_finite_not_nan; [|apply or_else_0_finite, Hr].
  apply add_finite_not_nan; [|apply or_else_0_finite, Hw].
  apply or_else_0_not_nan.
Qed.

Lemma point_at_in_range pp y m r i :
  (i <= 5)%nat -> point_in_range (point_at pp y m r i).
Proof.
  intros Hi. unfold point_in_range, point_at. destruct m.
  - rewrite personal_metrics. cbv zeta.
    pose proof (health_in_range pp r i Hi) as Hh.
    pose proof (wealth_in_range pp r i Hi) as Hw.
    pose proof (relationships_in_range r i Hi) as Hr.
    repeat constructor; simpl; auto using happiness_in_range.
  - unfold student_point. counter_cases i; vm_compute; repeat constructor.
  - unfold business_point.
    destruct (strict_eq r "DANGER"); destruct (strict_eq r "POSITIVE");
      counter_cases i; vm_compute; repeat constructor.
  - unfold government_point. counter_cases i; vm_compute; repeat constructor.
Qed.

Lemma health_at pp y r i :
  (i <= 5)%nat ->
  metric_at (generateProjectionData pp y PERSONAL r) i "health" =
  Some (clamp ((healthBase pp - (of_nat i * 2)) - yearEffect r (of_nat i))).
Proof. intros Hi. counter_cases i; reflexivity. Qed.

Lemma wealth_at pp y r i :
  (i <= 5)%nat ->
  metric_at (generateProjectionData pp y PERSONAL r) i "wealth" =
  Some (clamp ((wealthBase pp + wealthEffect r (of_nat i)) * wealthDamper r)).
Proof. intros Hi. counter_cases i; reflexivity. Qed.

(** The embedding evaluated: [parseInt] on sample inputs, the labels of
    a projection, and the business scenario of the design (DANGER, year
    offset 3). *)
Example parseInt_samples :
  parseInt "5000" = 5000 /\ parseInt "  -12abc" = -12 /\
  parseInt "0x1F" = 31 /\ parseInt "12.9" = 12 /\
  parseInt "" = nan /\ parseInt "abc" = nan /\ parseInt "-" = nan /\
  parseInt "0x" = nan.
Proof. repeat split; reflexivity. Qed.

Example labels_from_2025 pp m r :
  map period (generateProjectionData pp 2025 m r) =
  ["2025"; "2026"; "2027"; "2028"; "2029"; "2030"].
Proof. destruct m; reflexivity. Qed.

Example business_scenario_year3 pp y :
  metrics_at_year3 (generateProjectionData pp y BUSINESS (risk_arg DANGER)) =
  Some [("revenue", 50); ("marketShare", 25); ("innovation", 74)].
Proof. reflexivity. Qed.

Lemma no_number_reads_nan s :
  s = "" \/ unparseable s -> parseInt s = nan.
Proof.
  intros [->|H]; [reflexivity|].
  unfold parseInt. rewrite H. reflexivity.
Qed.

End ProjectionFacts.

(** ** The properties of the design document *)

Section Claims.

Import JS Projection Controller FloatFacts ProjectionFacts.
Open Scope string_scope.

(** C1.  For every domain, every [riskLevel] argument (the five risk
    classifications among them, [null] for the baseline), every personal
    profile and every calendar year, every metric of every one of the
    generated points lies in the closed interval [0, 100]. *)
Theorem metrics_within_0_100 pp y m r :
  Forall point_in_range (generateProjectionData pp y m r).
Proof.
  rewrite generate_points. apply Forall_forall. intros p Hp.
  apply in_map_iff in Hp. destruct Hp as [i [<- Hi]].
  apply in_seq in Hi. apply point_at_in_range. lia.
Qed.

(** C8.  The generated projection has exactly 6 points, and the period
    label of point [i] is the decimal string of [startYear + i], for
    [i] from 0 to 5 in order. *)
Theorem six_points_labelled_by_year pp y m r :
  List.length (generateProjectionData pp y m r) = 6%nat /\
  map period (generateProjectionData pp y m r) =
  map (fun i => Number_toString (y + Z.of_nat i)) (seq 0 6).
Proof.
  rewrite generate_points. split.
  - rewrite length_map, length_seq. reflexivity.
  - rewrite map_map. apply map_ext. intros i. destruct m; reflexivity.
Qed.

(** C10.  The baseline pass ([null]) and the NEUTRAL classification give
    the same projection, point for point and metric for metric, in every
    domain and for every profile. *)
Theorem baseline_equals_neutral pp y m :
  generateProjectionData pp y m (risk_arg NONE) =
  generateProjectionData pp y m (risk_arg NEUTRAL).
Proof.
  rewrite !generate_points. apply map_ext. intros i.
  unfold point_at. destruct m; reflexivity.
Qed.

(** C4.  The personal scenario of the design: income 5000, savings 10000,
    health GOOD, lifestyle ACTIVE, baseline risk.  At year offset 0 the
    scores are 50, 30 and 40, health is 80, wealth 40, relationships 70,
    and happiness is clamp((80+40+70)/3), the binary64 value
    63.333333333333336, within 0.05 of 63.3. *)
Theorem personal_scenario_year0 fn ag jt ss dec y :
  let pp := mkPersonal fn ag jt "5000" "10000" "GOOD" ss "ACTIVE" dec in
  let points := generateProjectionData pp y PERSONAL (risk_arg NONE) in
  incomeScore pp = 50%float /\
  savingsScore pp = 30%float /\
  wealthBase pp = 40%float /\
  metric_at points 0 "health" = Some 80%float /\
  metric_at points 0 "wealth" = Some 40%float /\
  metric_at points 0 "relationships" = Some 70%float /\
  metric_at points 0 "happiness" = Some (clamp ((80 + 40 + 70) / 3)) /\
  clamp ((80 + 40 + 70) / 3) = 0x1.faaaaaaaaaaabp+5%float /\
  near (clamp ((80 + 40 + 70) / 3)) 63.3 0.05 = true.
Proof.
  cbv zeta. repeat split; reflexivity.
Qed.

(** C6.  The government projection is the same under any two [riskLevel]
    arguments; at year offset 2 economic growth is 38, public
    satisfaction is clamp(50 + 10*sin(2)), within 0.05 of 59.1, and
    social stability is 64, under every risk. *)
Theorem government_ignores_risk pp y r1 r2 :
  generateProjectionData pp y GOVERNMENT r1 =
  generateProjectionData pp y GOVERNMENT r2 /\
  (let points := generateProjectionData pp y GOVERNMENT r1 in
   metric_at points 2 "economicGrowth" = Some 38%float /\
   metric_at points 2 "publicSatisfaction" = Some (clamp (50 + 10 * Math_sin 2)) /\
   near (clamp (50 + 10 * Math_sin 2)) 59.1 0.05 = true /\
   metric_at points 2 "socialStability" = Some 64%float).
Proof.
  cbv zeta. repeat split; reflexivity.
Qed.

(** C7.  For every personal profile, health at year offset 5 under DANGER
    is at most health at year offset 5 under NEUTRAL, which is at most
    health at year offset 5 under POSITIVE. *)
Theorem health_year5_monotone pp y :
  exists hD hN hP,
    metric_at (generateProjectionData pp y PERSONAL (risk_arg DANGER)) 5 "health"
      = Some hD /\
    metric_at (generateProjectionData pp y PERSONAL (risk_arg NEUTRAL)) 5 "health"
      = Some hN /\
    metric_at (generateProjectionData pp y PERSONAL (risk_arg POSITIVE)) 5 "health"
      = Some hP /\
    (hD <=? hN)%float = true /\ (hN <=? hP)%float = true.
Proof.
  do 3 eexists. rewrite !health_at by lia.
  split; [reflexivity|]. split; [reflexivity|]. split; [reflexivity|].
  unfold healthBase.
  destruct (String.eqb (healthStatus pp) "EXCELLENT");
    destruct (String.eqb (healthStatus pp) "GOOD");
    destruct (String.eqb (lifestyle pp) "STRESSED");
    split; vm_compute; reflexivity.
Qed.

(** C5, as stated, fails: with income 5000 and savings 10000 under DANGER
    at year offset 0 the wealth is clamp(40 * 0.9) = 36, while the
    growthFactor of the table would give clamp(40 * 0.8) = 32. *)
Lemma wealth_damper_is_not_growthFactor :
  ~ (forall pp y (r : RiskClassification) i, (i <= 5)%nat ->
       metric_at (generateProjectionData pp y PERSONAL (risk_arg r)) i "wealth" =
       Some (clamp ((wealthBase pp + wealthEffect (risk_arg r) (of_nat i))
                    * table_growthFactor r))).
Proof.
  intros H.
  specialize (H (mkPersonal "" "" "" "5000" "10000" "GOOD" "SINGLE" "ACTIVE" "")
                2025%Z DANGER 0%nat (Nat.le_0_l 5)).
  apply (f_equal (fun o => match o with
                           | Some v => (v =? 36)%float
                           | None => false
                           end)) in H.
  vm_compute in H. discriminate H.
Qed.

(** C5, amended.  The factor applied to the wealth term is 0.9 under
    DANGER and 1 under every other classification, for every profile and
    year offset 0..5; it is the growthFactor of the table under NONE and
    NEUTRAL only. *)
Theorem wealth_damper_by_design pp y (r : RiskClassification) i :
  (i <= 5)%nat ->
  let damper := match r with DANGER => 0.9%float | _ => 1%float end in
  metric_at (generateProjectionData pp y PERSONAL (risk_arg r)) i "wealth" =
  Some (clamp ((wealthBase pp + wealthEffect (risk_arg r) (of_nat i)) * damper)) /\
  (damper = table_growthFactor r <-> r = NONE \/ r = NEUTRAL).
Proof.
  intros Hi damper. split.
  - rewrite wealth_at by exact Hi. destruct r; reflexivity.
  - subst damper. destruct r; split; intros H; auto;
      try (destruct H; discriminate);
      apply (f_equal (fun v => (v =? 1)%float || (v =? 0.9)%float)) in H;
      vm_compute in H; discriminate H.
Qed.

(** The amended C5 at the input of the counterexample: DANGER, year
    offset 0, where the wealth is 36. *)
Lemma wealth_damper_by_design_witness :
  (0 <= 5)%nat /\
  metric_at (generateProjectionData
               (mkPersonal "" "" "" "5000" "10000" "GOOD" "SINGLE" "ACTIVE" "")
               2025 PERSONAL (risk_arg DANGER)) 0 "wealth" = Some 36%float.
Proof.
  split; [lia|].
  exact (proj1 (wealth_damper_by_design
                  (mkPersonal "" "" "" "5000" "10000" "GOOD" "SINGLE" "ACTIVE" "")
                  2025 DANGER 0 (Nat.le_0_l 5))).
Defined.

(** C9.  When the income (resp. savings) field is empty or holds no
    number, the value used for it is 0 and incomeScore (resp.
    savingsScore) is 0; whatever the two fields hold, the projection is
    produced: six points, every metric in [0, 100]. *)
Theorem unparseable_fields_default_to_zero pp :
  (monthlyIncome pp = "" \/ unparseable (monthlyIncome pp) ->
     or_else (parseInt (monthlyIncome pp)) 0 = 0%float /\ incomeScore pp = 0%float) /\
  (savings pp = "" \/ unparseable (savings pp) ->
     or_else (parseInt (savings pp)) 0 = 0%float /\ savingsScore pp = 0%float) /\
  (forall y r,
     List.length (generateProjectionData pp y PERSONAL r) = 6%nat /\
     Forall point_in_range (generateProjectionData pp y PERSONAL r)).
Proof.
  split; [|split].
  - intros H. apply no_number_reads_nan in H.
    unfold incomeScore. rewrite H. split; reflexivity.
  - intros H. apply no_number_reads_nan in H.
    unfold savingsScore. rewrite H. split; reflexivity.
  - intros y r. split.
    + rewrite generate_points, length_map, length_seq. reflexivity.
    + rewrite generate_points. apply Forall_forall. intros p Hp.
      apply in_map_iff in Hp. destruct Hp as [i [<- Hi]].
      apply in_seq in Hi. apply point_at_in_range. lia.
Qed.

(** C9 at an empty income field and the savings field [abc]. *)
Lemma unparseable_fields_default_to_zero_witness :
  incomeScore (mkPersonal "" "" "" "" "abc" "GOOD" "SINGLE" "ACTIVE" "") = 0%float /\
  savingsScore (mkPersonal "" "" "" "" "abc" "GOOD" "SINGLE" "ACTIVE" "") = 0%float.
Proof.
  destruct (unparseable_fields_default_to_zero
              (mkPersonal "" "" "" "" "abc" "GOOD" "SINGLE" "ACTIVE" ""))
    as [Hi [Hs _]].
  split.
  - apply Hi. left. reflexivity.
  - apply Hs. right. reflexivity.
Defined.

(** C3.  As soon as [runAnalysis] is called, and before the advisory
    call settles, the state holds the baseline projection
    [generateProjectionData(mode, null)]: the handler is suspended at its
    [await] in that state, which does not depend on how or when the call
    settles. *)
Theorem baseline_published_first c s :
  exists st req resume,
    runAnalysis c s = Await st req (mode s) resume /\
    data st = generateProjectionData (personalProfile s) (year c) (mode s) None /\
    analysisResult st = None /\
    isAnalyzing st = true.
Proof.
  unfold runAnalysis, promptData_of.
  destruct (mode s); do 3 eexists; repeat split.
Qed.

(** What the rest of the handler does to the state it resumes in, also
    when that state has changed since the request: a rejected call leaves
    it as it is, an empty result changes no projection. *)
Lemma resume_frame c s st req tag resume c' st' :
  runAnalysis c s = Await st req tag resume ->
  resume c' Rejected st' = st' /\
  data (resume c' (Fulfilled None) st') = data st' /\
  forall res,
    data (resume c' (Fulfilled (Some res)) st') =
    generateProjectionData (personalProfile s) (year c') (mode s)
      (Some (riskLevel res)).
Proof.
  unfold runAnalysis. destruct (promptData_of s); [|discriminate].
  intros H. injection H as _ _ _ <-. repeat split.
Qed.

End Claims.

(** ** Facts on the handlers *)

Module HandlerFacts.
Import JS Projection Controller Handlers.
Open Scope string_scope.

Lemma lookup_upsert_same k v o : lookup k (upsert k v o) = Some v.
Proof.
  induction o as [|[k' v'] o IH]; simpl.
  - rewrite String.eqb_refl. reflexivity.
  - destruct (String.eqb k k') eqn:E; simpl; rewrite ?String.eqb_refl, ?E; auto.
Qed.

Lemma lookup_upsert_other k k0 v o :
  k <> k0 -> lookup k (upsert k0 v o) = lookup k o.
Proof.
  intros Hk. apply String.eqb_neq in Hk.
  induction o as [|[k' v'] o IH]; simpl.
  - rewrite Hk. reflexivity.
  - destruct (String.eqb k0 k') eqn:E; simpl.
    + apply String.eqb_eq in E. subst k'. rewrite Hk. reflexivity.
    + rewrite IH. reflexivity.
Qed.

Lemma lookup_upsert_key k k0 v o :
  lookup k (upsert k0 v o) <> None -> k = k0 \/ lookup k o <> None.
Proof.
  destruct (String.eqb_spec k k0) as [->|Hne]; [left; reflexivity|].
  rewrite lookup_upsert_other by exact Hne. right. assumption.
Qed.

Lemma member_In k l : member k l = true <-> In k l.
Proof.
  unfold member. rewrite existsb_exists. split.
  - intros [x [Hx E]]. apply String.eqb_eq in E. subst. exact Hx.
  - intros H. exists k. split; [exact H | apply String.eqb_refl].
Qed.

Lemma handle_keeps_form_ok e s :
  student_form_ok s -> offered e s = true -> student_form_ok (handle e s).
Proof.
  intros [He Hk] Ho. destruct e as [l|t|sub v|opt|v|v]; simpl in *.
  - destruct (String.eqb l (studentLevel s)); [split; assumption|].
    split; [left; reflexivity | intros k H; exfalso; apply H; reflexivity].
  - destruct (String.eqb t (studentStream s)); [split; assumption|].
    split; [left; reflexivity | intros k H; exfalso; apply H; reflexivity].
  - split; [exact He|]. intros k H. simpl in H.
    apply lookup_upsert_key in H. destruct H as [->|H]; [|apply Hk, H].
    left. apply member_In, Ho.
  - split; [|exact Hk]. simpl.
    apply andb_prop in Ho. destruct Ho as [_ Ho].
    apply orb_prop in Ho. destruct Ho as [Ho|Ho].
    + left. apply String.eqb_eq, Ho.
    + right. apply member_In, Ho.
  - split; [exact He|]. intros k H. simpl in H.
    apply lookup_upsert_key in H. destruct H as [->|H]; [|apply Hk, H].
    apply andb_prop in Ho. destruct Ho as [_ Ho].
    destruct He as [He|He]; [|right; exact He].
    rewrite He in Ho. discriminate Ho.
  - split; assumption.
Qed.

Lemma projection_keys pp y m r :
  Forall (fun p => map fst (metrics p) = domain_keys m)
    (generateProjectionData pp y m r).
Proof.
  rewrite ProjectionFacts.generate_points. apply Forall_forall. intros p Hp.
  apply in_map_iff in Hp. destruct Hp as [i [<- _]].
  destruct m; reflexivity.
Qed.

Lemma promptData_some s : exists p, promptData_of s = Some p.
Proof. unfold promptData_of. destruct (mode s); eexists; reflexivity. Qed.

End HandlerFacts.

(** ** Facts on [parseInt] *)

Module ParseFacts.
Import JS.
Open Scope string_scope.

Lemma digit_of_decimal a :
  is_decimal_digit a = true ->
  digit_of a = Some (code a - 48)%Z /\ (code a - 48 <? 10)%Z = true.
Proof.
  unfold is_decimal_digit, digit_of. intros H. rewrite H. split; [reflexivity|].
  apply andb_prop in H. destruct H as [_ H]. apply Z.leb_le in H.
  apply Z.ltb_lt. lia.
Qed.

Lemma digits_stop c t acc :
  is_decimal_digit c = false -> digits 10 (String c t) acc = acc.
Proof.
  unfold is_decimal_digit. intros H. simpl. unfold digit_of. rewrite H.
  destruct ((97 <=? code c) && (code c <=? 122))%Z eqn:E1.
  - apply andb_prop in E1. destruct E1 as [E1 _]. apply Z.leb_le in E1.
    replace (code c - 87 <? 10)%Z with false; [reflexivity|].
    symmetry. apply Z.ltb_ge. lia.
  - destruct ((65 <=? code c) && (code c <=? 90))%Z eqn:E2; [|reflexivity].
    apply andb_prop in E2. destruct E2 as [E2 _]. apply Z.leb_le in E2.
    replace (code c - 55 <? 10)%Z with false; [reflexivity|].
    symmetry. apply Z.ltb_ge. lia.
Qed.

Lemma digits_cut d : forall acc c t,
  all_decimal d = true -> is_decimal_digit c = false ->
  digits 10 (d ++ String c t) acc = digits 10 d acc.
Proof.
  induction d as [|a d IH]; intros acc c t Hd Hc.
  - simpl append. rewrite digits_stop by exact Hc. reflexivity.
  - simpl in Hd. apply andb_prop in Hd. destruct Hd as [Ha Hd].
    destruct (digit_of_decimal a Ha) as [E1 E2].
    simpl. rewrite E1, E2. apply IH; assumption.
Qed.

Lemma decimal_not_white a : is_decimal_digit a = true -> is_white a = false.
Proof.
  unfold is_decimal_digit, is_white. intros H.
  apply andb_prop in H. destruct H as [H1 H2].
  apply Z.leb_le in H1. apply Z.leb_le in H2.
  replace (code a <=? 13)%Z with false by (symmetry; apply Z.leb_gt; lia).
  replace (code a =? 32)%Z with false by (symmetry; apply Z.eqb_neq; lia).
  replace (code a =? 160)%Z with false by (symmetry; apply Z.eqb_neq; lia).
  rewrite andb_false_r. reflexivity.
Qed.

Lemma strip_sign_decimal a x :
  is_decimal_digit a = true -> strip_sign (String a x) = (false, String a x).
Proof.
  intros H. destruct a as [[] [] [] [] [] [] [] []]; try reflexivity;
    vm_compute in H; discriminate H.
Qed.

Lemma strip_prefix_no_hex a x :
  head_not_x x = true -> strip_prefix (String a x) = (10%Z, String a x).
Proof.
  intros H. destruct a as [[] [] [] [] [] [] [] []]; try reflexivity.
  destruct x as [|b x']; [reflexivity|].
  destruct b as [[] [] [] [] [] [] [] []]; try reflexivity;
    vm_compute in H; discriminate H.
Qed.

Lemma head_not_x_append d c t :
  all_decimal d = true -> c <> "x"%char -> c <> "X"%char ->
  head_not_x (d ++ String c t) = true.
Proof.
  intros Hd Hx HX. destruct d as [|a d]; simpl.
  - apply Ascii.eqb_neq in Hx. apply Ascii.eqb_neq in HX.
    rewrite Hx, HX. reflexivity.
  - simpl in Hd. apply andb_prop in Hd. destruct Hd as [Ha _].
    destruct a as [[] [] [] [] [] [] [] []]; try reflexivity;
      vm_compute in Ha; discriminate Ha.
Qed.

Lemma head_not_x_decimal d : all_decimal d = true -> head_not_x d = true.
Proof.
  intros Hd. destruct d as [|a d]; [reflexivity|]. simpl.
  simpl in Hd. apply andb_prop in Hd. destruct Hd as [Ha _].
  destruct a as [[] [] [] [] [] [] [] []]; try reflexivity;
    vm_compute in Ha; discriminate Ha.
Qed.

Lemma parse_int_literal_cut d c t :
  d <> "" -> all_decimal d = true -> is_decimal_digit c = false ->
  c <> "x"%char -> c <> "X"%char ->
  parse_int_literal (d ++ String c t) = parse_int_literal d.
Proof.
  intros Hne Hd Hc Hx HX. destruct d as [|a d]; [contradiction|].
  pose proof Hd as Hd'. simpl in Hd'. apply andb_prop in Hd'.
  destruct Hd' as [Ha Hd'].
  unfold parse_int_literal. simpl append. simpl trim_start.
  rewrite (decimal_not_white a Ha).
  rewrite !strip_sign_decimal by exact Ha.
  rewrite !strip_prefix_no_hex
    by (apply head_not_x_append || apply head_not_x_decimal; assumption).
  change (String a (d ++ String c t)) with (String a d ++ String c t).
  rewrite digits_cut by assumption. reflexivity.
Qed.

End ParseFacts.

(** ** Further properties of the component *)

Section ControllerProperties.

Import JS Projection Controller Handlers FloatFacts ProjectionFacts HandlerFacts.
Open Scope string_scope.

(** X1.  [addLog] keeps no entry it is given: the log after it is the
    old log without its first 49 entries, so a log of at most 49 entries
    becomes empty. *)
Theorem addLog_keeps_no_entry c msg s :
  logs (addLog c msg s) = skipn 49 (logs s) /\
  List.length (logs (addLog c msg s)) = (List.length (logs s) - 49)%nat /\
  ((List.length (logs s) <= 49)%nat -> logs (addLog c msg s) = []).
Proof.
  assert (H : logs (addLog c msg s) = skipn 49 (logs s)) by reflexivity.
  rewrite H. split; [reflexivity|]. split.
  - apply length_skipn.
  - intros Hl. apply skipn_all2. exact Hl.
Qed.

(** X2.  A click on the tab of another mode empties the projection and
    the analysis and changes no form and not the busy flag; a click on
    the tab of the current mode changes nothing. *)
Theorem selectMode_clears_results_only c m s :
  m <> mode s ->
  let s' := selectMode c m s in
  mode s' = m /\ data s' = [] /\ analysisResult s' = None /\
  isAnalyzing s' = isAnalyzing s /\
  personalProfile s' = personalProfile s /\
  studentLevel s' = studentLevel s /\ studentStream s' = studentStream s /\
  subjects s' = subjects s /\ electiveSubject s' = electiveSubject s /\
  hobbies s' = hobbies s /\
  bizProfile s' = bizProfile s /\ govProfile s' = govProfile s /\
  selectMode c (mode s) s = s.
Proof.
  intros Hm s'. subst s'. unfold selectMode.
  assert (E : mode_eqb m (mode s) = false).
  { destruct m, (mode s); try reflexivity; exfalso; apply Hm; reflexivity. }
  rewrite E. repeat split.
  destruct (mode s); reflexivity.
Qed.

(** X3.  The busy flag is cleared when the advisory call is fulfilled,
    with a result or without; when the call is rejected the flag stays
    set. *)
Theorem busy_flag_after_settle c c' s :
  (forall result,
     isAnalyzing (settle (runAnalysis c s) c' (Fulfilled result)) = false) /\
  isAnalyzing (settle (runAnalysis c s) c' Rejected) = true.
Proof.
  unfold runAnalysis, promptData_of.
  destruct (mode s); split; try reflexivity; intros [res|]; reflexivity.
Qed.

(** X4.  [runAnalysis] changes neither the mode nor any form state,
    however the call settles; the default grade of the elective goes
    into the request only, not into the state. *)
Theorem runAnalysis_keeps_forms c c' s o :
  let final := settle (runAnalysis c s) c' o in
  mode final = mode s /\
  personalProfile final = personalProfile s /\
  studentLevel final = studentLevel s /\ studentStream final = studentStream s /\
  subjects final = subjects s /\ electiveSubject final = electiveSubject s /\
  hobbies final = hobbies s /\
  bizProfile final = bizProfile s /\ govProfile final = govProfile s.
Proof.
  unfold runAnalysis. cbv zeta.
  destruct (promptData_of s); destruct o as [[res|]|]; repeat split.
Qed.

(** X10.  Every point of a projection carries the metrics of the
    requested domain, all of them and no other, in the order of
    assignment. *)
Theorem points_carry_domain_metrics pp y m r :
  Forall (fun p => map fst (metrics p) = domain_keys m)
    (generateProjectionData pp y m r).
Proof.
  rewrite generate_points. apply Forall_forall. intros p Hp.
  apply in_map_iff in Hp. destruct Hp as [i [<- _]].
  destruct m; reflexivity.
Qed.

(** X5.  A result that arrives after the user has switched to another
    mode still replaces the projection: the state then shows the new
    mode with a projection of the mode of the request, whose points
    carry the metrics of that mode and not those of the mode shown. *)
Theorem late_result_after_mode_switch c c1 c2 s m' res :
  m' <> mode s ->
  exists st,
    pending_state (runAnalysis c s) = Some st /\
    let final := resume_of (runAnalysis c s) c2 (Fulfilled (Some res))
                   (selectMode c1 m' st) in
    mode final = m' /\
    data final = generateProjectionData (personalProfile s) (year c2) (mode s)
                   (Some (riskLevel res)) /\
    Forall (fun p => map fst (metrics p) = domain_keys (mode s)) (data final) /\
    domain_keys (mode s) <> domain_keys m'.
Proof.
  intros Hm.
  assert (E : mode_eqb m' (mode s) = false).
  { destruct m', (mode s); try reflexivity; exfalso; apply Hm; reflexivity. }
  destruct (promptData_some s) as [p P].
  unfold runAnalysis. rewrite P. eexists. split; [reflexivity|].
  cbv zeta. unfold selectMode. simpl mode. rewrite E.
  split; [reflexivity|]. split; [reflexivity|]. split.
  - apply projection_keys.
  - destruct m', (mode s); try discriminate; exfalso; apply Hm; reflexivity.
Qed.

End ControllerProperties.

(** ** The merge of the advisory result *)

Section Merge.

Import JS Projection Controller Handlers FloatFacts ProjectionFacts HandlerFacts.
Open Scope string_scope.

Lemma after_clicks_data clicks : forall x,
  data (after_clicks clicks x) = if all_on (mode x) clicks then data x else [].
Proof.
  induction clicks as [|[c1 m] clicks IH]; intros x; [reflexivity|].
  unfold after_clicks, all_on in *. simpl. unfold selectMode at 2.
  destruct (mode_eqb m (mode x)) eqn:E; simpl.
  - apply IH.
  - rewrite IH. simpl. destruct (forallb _ clicks); reflexivity.
Qed.

Lemma after_clicks_no_result clicks : forall x,
  analysisResult x = None -> analysisResult (after_clicks clicks x) = None.
Proof.
  induction clicks as [|[c1 m] clicks IH]; intros x Hx; [exact Hx|].
  unfold after_clicks in *. simpl. apply IH. unfold selectMode.
  destruct (mode_eqb m (mode x)); [exact Hx | reflexivity].
Qed.

(** C2, as stated, fails: after a request in PERSONAL mode and a click
    on the BUSINESS tab while the call is pending, a call that returns no
    result leaves the empty projection, not the baseline one. *)
Lemma failed_call_after_mode_switch_is_not_baseline :
  ~ (forall c c' s clicks st,
       pending_state (runAnalysis c s) = Some st ->
       data (resume_of (runAnalysis c s) c' (Fulfilled None)
               (after_clicks clicks st)) =
       generateProjectionData (personalProfile s) (year c) (mode s) None).
Proof.
  intros H.
  specialize (H (mkClock 2025 "12:00:00") (mkClock 2025 "12:00:09") initialState
                [(mkClock 2025 "12:00:05", BUSINESS)] _ eq_refl).
  vm_compute in H. discriminate H.
Qed.

(** C2, amended.  Whatever mode tabs are clicked while the call is
    pending: when the call is fulfilled with a result of risk level R,
    the final projection is [generateProjectionData(mode, R)] for the
    mode and profile of the request, and the result is stored; when it
    is fulfilled with no result, or rejected, no result is stored and the
    final projection is the baseline one if no click changed the mode,
    and the empty one otherwise. *)
Theorem merge_on_settle_after_clicks c c' s clicks :
  exists st,
    pending_state (runAnalysis c s) = Some st /\
    let resume := resume_of (runAnalysis c s) c' in
    let baseline :=
      generateProjectionData (personalProfile s) (year c) (mode s) None in
    (forall res,
       let final := resume (Fulfilled (Some res)) (after_clicks clicks st) in
       data final = generateProjectionData (personalProfile s) (year c') (mode s)
                      (Some (riskLevel res)) /\
       analysisResult final = Some res) /\
    (let final := resume (Fulfilled None) (after_clicks clicks st) in
     data final = (if all_on (mode s) clicks then baseline else []) /\
     analysisResult final = None) /\
    (let final := resume Rejected (after_clicks clicks st) in
     data final = (if all_on (mode s) clicks then baseline else []) /\
     analysisResult final = None).
Proof.
  destruct (promptData_some s) as [p P].
  unfold runAnalysis. rewrite P. eexists. split; [reflexivity|].
  cbv zeta. simpl resume_of.
  split; [intros res; split; reflexivity|].
  split; (split; [exact (after_clicks_data clicks _)|]).
  - reflexivity.
  - apply after_clicks_no_result. reflexivity.
Qed.

End Merge.

Section FormAndProjectionProperties.

Import JS Projection Controller Handlers FloatFacts ProjectionFacts HandlerFacts.
Open Scope string_scope.

(** X6.  In STUDENT mode the request carries the level, the stream and
    the hobbies as they are, and a subjects object that always has an
    entry for the elective subject, also when none is selected (the key
    is then the empty string): its grade is the stored one, or "0" when
    none or an empty one is stored.  Every other entry is the stored
    one. *)
Theorem student_request_has_elective_entry s :
  mode s = STUDENT ->
  exists subs g,
    promptData_of s =
      Some (StudentJson (studentLevel s) (studentStream s) subs (hobbies s)) /\
    lookup (electiveSubject s) subs = Some g /\ g <> "" /\
    (lookup (electiveSubject s) (subjects s) = Some g \/
     (g = "0" /\ (lookup (electiveSubject s) (subjects s) = None \/
                  lookup (electiveSubject s) (subjects s) = Some ""))) /\
    forall k, k <> electiveSubject s -> lookup k subs = lookup k (subjects s).
Proof.
  intros Hm. unfold promptData_of. rewrite Hm.
  do 2 eexists. split; [reflexivity|].
  split; [apply lookup_upsert_same|].
  split; [|split].
  - destruct (lookup _ _) as [[|a v]|]; discriminate.
  - destruct (lookup _ _) as [[|a v]|]; auto.
  - intros k Hk. apply lookup_upsert_other. exact Hk.
Qed.

(** X7.  The consistency of the student form is kept by every event the
    form offers, hence by every sequence of them: from a consistent
    state, such as the initial one, the selected elective is always none
    or one on offer, and no grade is ever stored for a subject outside
    the active lists. *)
Theorem student_form_stays_consistent es : forall s s',
  student_form_ok s -> play es s = Some s' -> student_form_ok s'.
Proof.
  induction es as [|e es IH]; simpl; intros s s' Hs Hp.
  - injection Hp as <-. exact Hs.
  - destruct (offered e s) eqn:Ho; [|discriminate].
    apply (IH (handle e s)); [|exact Hp].
    apply handle_keeps_form_ok; assumption.
Qed.

(** X8.  Selecting another elective does not clear the grade entered
    for the previous one: it stays stored, and the next request still
    carries it. *)
Theorem previous_elective_grade_is_kept s a b v :
  a <> b -> mode s = STUDENT ->
  let s1 := handle (ChangeElectiveGrade v) (handle (ChangeElective a) s) in
  let s2 := handle (ChangeElective b) s1 in
  electiveSubject s2 = b /\
  lookup a (subjects s2) = Some v /\
  exists subs, payload_subjects (promptData_of s2) = Some subs /\
               lookup a subs = Some v.
Proof.
  intros Hab Hm s1 s2. subst s1 s2. simpl.
  split; [reflexivity|]. split; [apply lookup_upsert_same|].
  unfold promptData_of. simpl. rewrite Hm. simpl. eexists. split; [reflexivity|].
  rewrite lookup_upsert_other by exact Hab. apply lookup_upsert_same.
Qed.

(** X9.  A risk level other than DANGER, WARNING and POSITIVE, whatever
    its text, gives the baseline projection in every mode. *)
Theorem unknown_risk_is_baseline pp y m r :
  strict_eq r "DANGER" = false -> strict_eq r "WARNING" = false ->
  strict_eq r "POSITIVE" = false ->
  generateProjectionData pp y m r = generateProjectionData pp y m None.
Proof.
  intros HD HW HP. rewrite !generate_points. apply map_ext. intros i.
  unfold point_at, personal_point, business_point, yearEffect, decayFactor,
    wealthEffect, wealthDamper.
  rewrite HD, HW, HP. destruct (truthy_str r); destruct m; reflexivity.
Qed.

(** X11.  The student, business and government projections read no
    form state, and the student and government ones no risk level
    either. *)
Theorem only_personal_reads_the_profile pp1 pp2 y r1 r2 :
  generateProjectionData pp1 y STUDENT r1 = generateProjectionData pp2 y STUDENT r2 /\
  generateProjectionData pp1 y GOVERNMENT r1 = generateProjectionData pp2 y GOVERNMENT r2 /\
  generateProjectionData pp1 y BUSINESS r1 = generateProjectionData pp2 y BUSINESS r1.
Proof. repeat split. Qed.

(** X12.  The personal projection reads four fields of the profile only:
    income, savings, health status and lifestyle.  Profiles that agree
    on them have the same projection. *)
Theorem personal_projection_reads_four_fields pp1 pp2 y m r :
  monthlyIncome pp1 = monthlyIncome pp2 -> savings pp1 = savings pp2 ->
  healthStatus pp1 = healthStatus pp2 -> lifestyle pp1 = lifestyle pp2 ->
  generateProjectionData pp1 y m r = generateProjectionData pp2 y m r.
Proof.
  intros Hi Hs Hh Hl. rewrite !generate_points. apply map_ext. intros i.
  unfold point_at, personal_point, healthBase, wealthBase, incomeScore,
    savingsScore.
  rewrite Hi, Hs, Hh, Hl. destruct m; reflexivity.
Qed.

Lemma Math_min_100_le x :
  PrimFloat.is_nan x = false -> (Math_min 100 x <=? 100)%float = true.
Proof.
  intros H. rewrite Math_min_100 by exact H.
  destruct (x <? 100)%float eqn:E; [apply ltb_leb, E | reflexivity].
Qed.

Lemma neg_infinity_least b :
  PrimFloat.is_nan b = false -> (neg_infinity <=? b)%float = true.
Proof.
  rewrite is_nan_spec, FloatAxioms.leb_spec. unfold SFleb.
  change (Prim2SF neg_infinity) with (S754_infinity true).
  destruct (Prim2SF b) as [s|[]| |s m e]; simpl; congruence.
Qed.

(** X13.  Whatever the income and savings fields hold, the two scores
    are numbers (not NaN) and at most 100.  They are not bounded below:
    every profile with the income text -5000 has the income score -50,
    and an income or savings text of a minus sign and 400 nines gives the
    score -Infinity, which is below or equal to every number. *)
Theorem scores_capped_above_only pp :
  PrimFloat.is_nan (incomeScore pp) = false /\
  (incomeScore pp <=? 100)%float = true /\
  PrimFloat.is_nan (savingsScore pp) = false /\
  (savingsScore pp <=? 100)%float = true /\
  (monthlyIncome pp = "-5000" -> incomeScore pp = (-50)%float) /\
  (monthlyIncome pp = huge_negative -> incomeScore pp = neg_infinity) /\
  (savings pp = huge_negative -> savingsScore pp = neg_infinity) /\
  (forall b, PrimFloat.is_nan b = false -> (neg_infinity <=? b)%float = true).
Proof.
  unfold incomeScore, savingsScore.
  repeat split;
    try (apply Math_min_100_not_nan, score_not_nan; reflexivity);
    try (apply Math_min_100_le, score_not_nan; reflexivity);
    try (intros ->; vm_compute; reflexivity).
  apply neg_infinity_least.
Qed.

(** X15.  In the personal projection, under every risk level, health
    does not rise from one year to the next. *)
Theorem health_never_rises pp y r i :
  (i < 5)%nat ->
  exists h h',
    metric_at (generateProjectionData pp y PERSONAL r) i "health" = Some h /\
    metric_at (generateProjectionData pp y PERSONAL r) (S i) "health" = Some h' /\
    (h' <=? h)%float = true.
Proof.
  intros Hi. do 2 eexists. rewrite !health_at by lia.
  split; [reflexivity|]. split; [reflexivity|].
  unfold healthBase, yearEffect, decayFactor.
  destruct (String.eqb (healthStatus pp) "EXCELLENT");
    destruct (String.eqb (healthStatus pp) "GOOD");
    destruct (String.eqb (lifestyle pp) "STRESSED");
    risk_cases r;
    (destruct i as [|[|[|[|[|?]]]]]; [ .. | exfalso; lia ]);
    vm_compute; reflexivity.
Qed.

End FormAndProjectionProperties.

Section InputProperties.

Import JS Projection Controller Handlers FloatFacts ProjectionFacts HandlerFacts.
Open Scope string_scope.

(** X14.  The income text is read up to its first character that is not
    a decimal digit: after at least one digit, whatever follows a
    character other than a digit, [x] and [X] changes neither the number
    read nor the income score (a thousands separator or a decimal point
    cuts the number). *)
Theorem income_text_is_cut_at_first_non_digit pp1 pp2 d c t :
  d <> "" -> all_decimal d = true -> is_decimal_digit c = false ->
  c <> "x"%char -> c <> "X"%char ->
  monthlyIncome pp1 = d ++ String c t -> monthlyIncome pp2 = d ->
  parseInt (monthlyIncome pp1) = parseInt (monthlyIncome pp2) /\
  incomeScore pp1 = incomeScore pp2.
Proof.
  intros Hne Hd Hc Hx HX H1 H2.
  assert (E : parseInt (monthlyIncome pp1) = parseInt (monthlyIncome pp2)).
  { rewrite H1, H2. unfold parseInt.
    rewrite ParseFacts.parse_int_literal_cut by assumption. reflexivity. }
  split; [exact E|]. unfold incomeScore. rewrite E. reflexivity.
Qed.


End InputProperties.

Section Instances.

Import JS Projection Controller Handlers FloatFacts ProjectionFacts HandlerFacts.
Open Scope string_scope.

(** The initial state is a consistent student form. *)
Lemma initial_form_ok : student_form_ok initialState.
Proof.
  split; [left; reflexivity | intros k H; exfalso; apply H; reflexivity].
Qed.

(** X2 at the initial state, on the BUSINESS tab. *)
Lemma selectMode_clears_results_only_witness :
  mode (selectMode (mkClock 2025 "12:00:00") BUSINESS initialState) = BUSINESS /\
  data (selectMode (mkClock 2025 "12:00:00") BUSINESS initialState) = [].
Proof.
  pose proof (selectMode_clears_results_only (mkClock 2025 "12:00:00")
                BUSINESS initialState ltac:(discriminate)) as H.
  cbv zeta in H. destruct H as (H1 & H2 & _). split; assumption.
Defined.

(** X5: a request in PERSONAL mode, a switch to BUSINESS, then a DANGER
    result. *)
Lemma late_result_after_mode_switch_witness :
  exists st,
    pending_state (runAnalysis (mkClock 2025 "12:00:00") initialState) = Some st /\
    mode (resume_of (runAnalysis (mkClock 2025 "12:00:00") initialState)
            (mkClock 2025 "12:00:09")
            (Fulfilled (Some (mkResult "DANGER" (mkSwot [] [] [] []) "" "" [])))
            (selectMode (mkClock 2025 "12:00:05") BUSINESS st)) = BUSINESS.
Proof.
  destruct (late_result_after_mode_switch (mkClock 2025 "12:00:00")
              (mkClock 2025 "12:00:05") (mkClock 2025 "12:00:09") initialState
              BUSINESS (mkResult "DANGER" (mkSwot [] [] [] []) "" "" [])
              ltac:(discriminate)) as [st [H1 H2]].
  exists st. split; [exact H1|]. cbv zeta in H2. exact (proj1 H2).
Defined.

(** X6 at the initial forms in STUDENT mode: no elective is selected. *)
Lemma student_request_has_elective_entry_witness :
  exists subs g,
    promptData_of (setMode STUDENT initialState) =
      Some (StudentJson "SECONDARY" "SCIENTIFIC" subs "") /\
    lookup "" subs = Some g /\ g <> "".
Proof.
  destruct (student_request_has_elective_entry (setMode STUDENT initialState)
              eq_refl) as (subs & g & H1 & H2 & H3 & _).
  exists subs, g. repeat split; assumption.
Defined.

(** X7: a grade, an elective and its grade, then a change of stream. *)
Lemma student_form_stays_consistent_witness :
  student_form_ok
    (resetElective (setStudentStream "LITERARY"
       (setSubjects
          (upsert "الحاسوب" "80"
             (upsert "الفيزياء" "90" (subjects initialState)))
          (setElectiveSubject "الحاسوب" initialState)))).
Proof.
  apply (student_form_stays_consistent
           [ChangeGrade "الفيزياء" "90"; ChangeElective "الحاسوب";
            ChangeElectiveGrade "80"; ClickStream "LITERARY"]
           initialState _ initial_form_ok).
  reflexivity.
Defined.

(** X8 with two scientific electives. *)
Lemma previous_elective_grade_is_kept_witness :
  lookup "الأحياء"
    (subjects
       (handle (ChangeElective "الحاسوب")
          (handle (ChangeElectiveGrade "75")
             (handle (ChangeElective "الأحياء")
                (setMode STUDENT initialState))))) = Some "75".
Proof.
  pose proof (previous_elective_grade_is_kept (setMode STUDENT initialState)
                "الأحياء" "الحاسوب" "75" ltac:(discriminate) eq_refl) as H.
  cbv zeta in H. exact (proj1 (proj2 H)).
Defined.

(** X9 at a level the table does not know. *)
Lemma unknown_risk_is_baseline_witness :
  generateProjectionData (personalProfile initialState) 2025 BUSINESS (Some "LOW") =
  generateProjectionData (personalProfile initialState) 2025 BUSINESS None.
Proof.
  exact (unknown_risk_is_baseline (personalProfile initialState) 2025 BUSINESS
           (Some "LOW") eq_refl eq_refl eq_refl).
Defined.

(** X12 at two profiles that differ in name, age and decision. *)
Lemma personal_projection_reads_four_fields_witness :
  generateProjectionData
    (mkPersonal "A" "30" "" "5000" "10000" "GOOD" "SINGLE" "ACTIVE" "stay")
    2025 PERSONAL (Some "WARNING") =
  generateProjectionData
    (mkPersonal "B" "55" "" "5000" "10000" "GOOD" "FAMILY" "ACTIVE" "leave")
    2025 PERSONAL (Some "WARNING").
Proof.
  exact (personal_projection_reads_four_fields
           (mkPersonal "A" "30" "" "5000" "10000" "GOOD" "SINGLE" "ACTIVE" "stay")
           (mkPersonal "B" "55" "" "5000" "10000" "GOOD" "FAMILY" "ACTIVE" "leave")
           2025 PERSONAL (Some "WARNING") eq_refl eq_refl eq_refl eq_refl).
Defined.

(** X14 at an income typed with a thousands separator: it reads as 5. *)
Lemma income_text_is_cut_at_first_non_digit_witness :
  incomeScore (mkPersonal "" "" "" "5,000" "" "GOOD" "SINGLE" "ACTIVE" "") =
  incomeScore (mkPersonal "" "" "" "5" "" "GOOD" "SINGLE" "ACTIVE" "").
Proof.
  exact (proj2 (income_text_is_cut_at_first_non_digit
                  (mkPersonal "" "" "" "5,000" "" "GOOD" "SINGLE" "ACTIVE" "")
                  (mkPersonal "" "" "" "5" "" "GOOD" "SINGLE" "ACTIVE" "")
                  "5" ","%char "000"
                  ltac:(discriminate) eq_refl eq_refl
                  ltac:(discriminate) ltac:(discriminate) eq_refl eq_refl)).
Defined.

(** X15 between the first two years, under POSITIVE. *)
Lemma health_never_rises_witness :
  exists h h',
    metric_at (generateProjectionData (personalProfile initialState) 2025
                 PERSONAL (Some "POSITIVE")) 0 "health" = Some h /\
    metric_at (generateProjectionData (personalProfile initialState) 2025
                 PERSONAL (Some "POSITIVE")) 1 "health" = Some h' /\
    (h' <=? h)%float = true.
Proof.
  exact (health_never_rises (personalProfile initialState) 2025
           (Some "POSITIVE") 0 ltac:(lia)).
Defined.


End Instances.
